(** * Quota and payment commands of greenfield-cmd (cmd/cmd_payment.go)

    A shallow embedding of the three command actions [buyQuotaForBucket],
    [getQuotaPrice] and [getQuotaInfo].  The actions talk to a chain client
    and write to standard output; both effects are modelled by a state monad
    over a [World] that carries the state of the remote chain, the log of
    calls made on the chain client and the chunks written to standard
    output. *)

From Stdlib Require Import String Ascii List NArith Lia DecimalString DecimalN.
Import ListNotations.
Local Open Scope string_scope.
Local Open Scope list_scope.

(** ** Go values used by the commands *)

(** Non-nil values of Go's [error] interface.  A nil error is [None] in an
    [option error].  [context_Canceled] is the sentinel of package context
    that a call returns when its context is cancelled while in flight. *)
Inductive error : Type :=
| errors_New (text : string)
| context_Canceled.

(** [err.Error()]. *)
Definition Error (err : error) : string :=
  match err with
  | errors_New text => text
  | context_Canceled => "context canceled"
  end.

(** A Go result pair [(v, err)]: [inl v] when [err == nil], [inr err]
    otherwise (the value is never used by this file in that case). *)
Definition Result (A : Type) : Type := (A + error)%type.

(** [tx.BroadcastMode] of the cosmos-sdk. *)
Inductive BroadcastMode : Type :=
| BROADCAST_MODE_UNSPECIFIED
| BROADCAST_MODE_BLOCK
| BROADCAST_MODE_SYNC
| BROADCAST_MODE_ASYNC.

(** [types.TxOption]; only [Mode] is set by this file, a pointer. *)
Record TxOption : Type := mkTxOption { Mode : option BroadcastMode }.

(** [sdktypes.BuyQuotaOption]. *)
Record BuyQuotaOption : Type := mkBuyQuotaOption { TxOpts : option TxOption }.

(** The quota ledger returned by [GetBucketReadQuota]: three uint64. *)
Record QuotaInfo : Type := mkQuotaInfo {
  ReadQuotaSize : N;
  SPFreeReadQuotaSize : N;
  ReadConsumedSize : N
}.

(** The prices returned by [GetStoragePrice], over the decimal type. *)
Record SpStoragePrice (Dec : Type) : Type := mkSpStoragePrice {
  ReadPrice : Dec;
  StorePrice : Dec
}.
Arguments mkSpStoragePrice {Dec} _ _.
Arguments ReadPrice {Dec} _.
Arguments StorePrice {Dec} _.

(** [*cli.Context]: the positional arguments and the flag lookups. *)
Record Context : Type := mkContext {
  ctx_Args : list string;
  ctx_Uint64 : string -> N;
  ctx_String : string -> string
}.

(** ** Formatting (package fmt) *)

Definition nl : string := String (ascii_of_nat 10) EmptyString.

(** Decimal rendering of an unsigned integer, as the verb d prints it. *)
Definition decimal (n : N) : string := NilEmpty.string_of_uint (N.to_uint n).

Inductive fmtArg : Type :=
| ArgS (s : string)
| ArgD (n : N).

Definition fmtVerb (verb : ascii) (a : fmtArg) : string :=
  match a with
  | ArgS s => if Ascii.eqb verb "s" then s else "%!" ++ String verb "(string=" ++ s ++ ")"
  | ArgD n => if Ascii.eqb verb "d" then decimal n else "%!" ++ String verb "(uint64=" ++ decimal n ++ ")"
  end.

(** [fmt.Sprintf] for the verbs this file uses (s and d), called with as
    many operands as the format has verbs. *)
Fixpoint Sprintf (format : string) (args : list fmtArg) : string :=
  match format with
  | EmptyString => EmptyString
  | String c rest =>
      if Ascii.eqb c "%" then
        match rest with
        | EmptyString => "%!(NOVERB)"
        | String verb rest' =>
            if Ascii.eqb verb "%" then String "%" (Sprintf rest' args)
            else
              match args with
              | a :: args' => fmtVerb verb a ++ Sprintf rest' args'
              | [] => "%!" ++ String verb "(MISSING)" ++ Sprintf rest' []
              end
        end
      else String c (Sprintf rest args)
  end.

(** [fmt.Sprintln]: operands separated by one space, newline appended. *)
Definition Sprintln (operands : list string) : string :=
  String.concat " " operands ++ nl.

(** ** The chain client *)

(** The methods of the chain client this file calls, over the state of the
    remote side [chain] (chain and storage providers): each one reads and
    may change it.  The context argument [c] is left out: what cancelling
    it does to a call in flight is that the call returns a cancellation
    error. *)
Record Client (chain BucketInfo Dec : Type) : Type := mkClient {
  HeadBucket : string -> chain -> Result BucketInfo * chain;
  BuyQuotaForBucket : string -> N -> BuyQuotaOption -> chain -> Result string * chain;
  GetStoragePrice : string -> chain -> Result (SpStoragePrice Dec) * chain;
  GetBucketReadQuota : string -> chain -> Result QuotaInfo * chain
}.
Arguments mkClient {chain BucketInfo Dec} _ _ _ _.
Arguments HeadBucket {chain BucketInfo Dec} _ _ _.
Arguments BuyQuotaForBucket {chain BucketInfo Dec} _ _ _ _ _.
Arguments GetStoragePrice {chain BucketInfo Dec} _ _ _.
Arguments GetBucketReadQuota {chain BucketInfo Dec} _ _ _.

(** One call on the chain client, with its arguments. *)
Inductive Call : Type :=
| CallHeadBucket (bucketName : string)
| CallBuyQuotaForBucket (bucketName : string) (targetQuota : N) (opt : BuyQuotaOption)
| CallGetStoragePrice (spAddress : string)
| CallGetBucketReadQuota (bucketName : string).

(** What cmd_payment.go uses and does not declare.
    - the types of the SDK: the remote state, [*storageTypes.BucketInfo]
      (returned by [HeadBucket] and dropped), [sdk.Dec] with its method
      [Float64()], and float64 with its default formatting by [fmt.Println];
    - from the other files of package main: the bucket-not-exist sentinel,
      the conversion [toCmdErr] applied to an error before a command returns
      it, the resolver of the bucket locator, the client constructor and the
      two flag names. *)
Class Externals : Type := {
  chain : Type;
  BucketInfo : Type;
  Dec : Type;
  float64 : Type;
  Float64 : Dec -> Result float64;
  fmt_float64 : float64 -> string;
  ErrBucketNotExist : error;
  toCmdErr : error -> option error;
  getBucketNameByUrl : Context -> Result string;
  NewClient : Context -> Result (Client chain BucketInfo Dec);
  chargeQuotaFlag : string;
  spAddressFlag : string
}.

Section Commands.

Context {env : Externals}.

(** The remote state, the log of the calls made on the chain client and
    the chunks written to standard output, oldest first. *)
Record World : Type := mkWorld {
  remote : chain;
  calls : list Call;
  stdout : list string
}.

(** ** The command monad *)

Definition M (A : Type) : Type := World -> A * World.

Definition ret {A : Type} (a : A) : M A := fun w => (a, w).

Definition bind {A B : Type} (m : M A) (k : A -> M B) : M B :=
  fun w => let (a, w') := m w in k a w'.

Notation "x <- m ;; k" := (bind m (fun x => k))
  (at level 61, m at next level, right associativity).
Notation "m ;;; k" := (bind m (fun _ => k))
  (at level 61, right associativity).

(** A call on the client: logged, and run on the remote state. *)
Definition invoke {A : Type} (call : Call) (op : chain -> Result A * chain) : M (Result A) :=
  fun w =>
    let (r, remote') := op (remote w) in
    (r, mkWorld remote' (calls w ++ [call]) (stdout w)).

Definition write (chunk : string) : M unit :=
  fun w => (tt, mkWorld (remote w) (calls w) (stdout w ++ [chunk])).

Definition Println (operands : list string) : M unit := write (Sprintln operands).
Definition Printf (format : string) (args : list fmtArg) : M unit := write (Sprintf format args).

(** ** The three commands *)

(** [buyQuotaForBucket] sets the charged quota meta of a bucket on chain. *)
Definition buyQuotaForBucket (ctx : Context) : M (option error) :=
  match getBucketNameByUrl ctx with
  | inr err => ret (toCmdErr err)
  | inl bucketName =>
    match NewClient ctx with
    | inr err => ret (toCmdErr err)
    | inl client =>
      (* if bucket not exist, no need to buy quota *)
      r <- invoke (CallHeadBucket bucketName) (HeadBucket client bucketName) ;;
      match r with
      | inr _ => ret (toCmdErr ErrBucketNotExist)
      | inl _ =>
        let targetQuota := ctx_Uint64 ctx chargeQuotaFlag in
        if (targetQuota =? 0)%N then ret (toCmdErr (errors_New "target quota not set"))
        else
          let broadcastMode := BROADCAST_MODE_BLOCK in
          let txnOpt := mkTxOption (Some broadcastMode) in
          let opt := mkBuyQuotaOption (Some txnOpt) in
          r <- invoke (CallBuyQuotaForBucket bucketName targetQuota opt)
                      (BuyQuotaForBucket client bucketName targetQuota opt) ;;
          match r with
          | inr err =>
              Println ["buy quota error:"; Error err] ;;;
              ret None
          | inl txnHash =>
              Printf ("buy quota for bucket: %s successfully, txn hash: %s" ++ nl)
                     [ArgS bucketName; ArgS txnHash] ;;;
              ret None
          end
      end
    end
  end.

(** [getQuotaPrice] queries the quota price info of a storage provider. *)
Definition getQuotaPrice (ctx : Context) : M (option error) :=
  match NewClient ctx with
  | inr err => ret (toCmdErr err)
  | inl client =>
    let spAddressStr := ctx_String ctx spAddressFlag in
    if String.eqb spAddressStr "" then ret (toCmdErr (errors_New "fail to fetch sp address"))
    else
      r <- invoke (CallGetStoragePrice spAddressStr) (GetStoragePrice client spAddressStr) ;;
      match r with
      | inr err => ret (toCmdErr err)
      | inl price =>
        match Float64 (ReadPrice price) with
        | inr err =>
            Println ["get quota price error:"; Error err] ;;;
            ret (Some err)
        | inl quotaPrice =>
          match Float64 (StorePrice price) with
          | inr err =>
              Println ["get storage price error:"; Error err] ;;;
              ret (Some err)
          | inl storagePrice =>
              Println ["get bucket read quota price:"; fmt_float64 quotaPrice; " wei/byte"] ;;;
              Println ["get bucket storage price:"; fmt_float64 storagePrice; " wei/byte"] ;;;
              ret None
          end
        end
      end
  end.

(** [getQuotaInfo] queries the quota ledger of a bucket. *)
Definition getQuotaInfo (ctx : Context) : M (option error) :=
  match getBucketNameByUrl ctx with
  | inr err => ret (toCmdErr err)
  | inl bucketName =>
    match NewClient ctx with
    | inr err => ret (toCmdErr err)
    | inl client =>
      (* if bucket not exist, no need to get info of quota *)
      r <- invoke (CallHeadBucket bucketName) (HeadBucket client bucketName) ;;
      match r with
      | inr _ => ret (toCmdErr ErrBucketNotExist)
      | inl _ =>
        r <- invoke (CallGetBucketReadQuota bucketName) (GetBucketReadQuota client bucketName) ;;
        match r with
        | inr err => ret (toCmdErr err)
        | inl quotaInfo =>
            Printf ("quota info:" ++ nl ++ " charged quota:%d " ++ nl ++ "free quota:%d "
                      ++ nl ++ " consumed quota:%d " ++ nl)
                   [ArgD (ReadQuotaSize quotaInfo); ArgD (SPFreeReadQuotaSize quotaInfo);
                    ArgD (ReadConsumedSize quotaInfo)] ;;;
            ret None
        end
      end
    end
  end.

End Commands.

(** ** Reading a run *)

Definition is_submission (call : Call) : bool :=
  match call with
  | CallBuyQuotaForBucket _ _ _ => true
  | _ => false
  end.

Definition is_ledger_read (call : Call) : bool :=
  match call with
  | CallGetBucketReadQuota _ => true
  | _ => false
  end.


(** The options with commitment mode wait-for-inclusion (block). *)
Definition blockOption : BuyQuotaOption :=
  mkBuyQuotaOption (Some (mkTxOption (Some BROADCAST_MODE_BLOCK))).

(** The text of a quota report, piece by piece. *)
Definition quotaReport (quotaInfo : QuotaInfo) : string :=
  "quota info:" ++ nl ++
  " charged quota:" ++ decimal (ReadQuotaSize quotaInfo) ++ " " ++ nl ++
  "free quota:" ++ decimal (SPFreeReadQuotaSize quotaInfo) ++ " " ++ nl ++
  " consumed quota:" ++ decimal (ReadConsumedSize quotaInfo) ++ " " ++ nl.

(** ** The command descriptors *)

Definition dq : string := String (ascii_of_nat 34) EmptyString.

(** [cli.StringFlag] and [cli.Uint64Flag], with the fields this file sets
    (the value of the Uint64 flag is left at its zero value). *)
Inductive Flag : Type :=
| StringFlag (Name Value Usage : string) (Required : bool)
| Uint64Flag (Name Usage : string) (Required : bool).

(** What a declared flag lets a command line carry: two command lines
    agree on a flag when the lookup of its type gives the same value. *)
Definition agree_on (flag : Flag) (ctx ctx' : Context) : Prop :=
  match flag with
  | StringFlag name _ _ _ => ctx_String ctx name = ctx_String ctx' name
  | Uint64Flag name _ _ => ctx_Uint64 ctx name = ctx_Uint64 ctx' name
  end.

Section Descriptors.

Context {env : Externals}.

(** [cli.Command], with the fields this file sets. *)
Record Command : Type := mkCommand {
  Name : string;
  Action : Context -> M (option error);
  Usage : string;
  ArgsUsage : string;
  Description : string;
  Flags : list Flag
}.

(** [cmdGetQuotaPrice]: query the quota price of the specific sp. *)
Definition cmdGetQuotaPrice : Command :=
  mkCommand
    "get-price"
    getQuotaPrice
    "get the quota price of the SP"
    ""
    (nl ++ "Get the quota price of the specific sp, the command need to set the sp address with --spAddress"
     ++ nl ++ "The command need to set the SP info with --spAddress."
     ++ nl ++ nl ++ "Examples:"
     ++ nl ++ "$ gnfd-cmd -c config.toml get-price --spAddress " ++ dq ++ "0x.." ++ dq)
    [StringFlag spAddressFlag "" "indicate the storage provider chain address string" true].

(** [cmdBuyQuota]: buy the read quota of the bucket. *)
Definition cmdBuyQuota : Command :=
  mkCommand
    "buy-quota"
    buyQuotaForBucket
    "update bucket quota info"
    "BUCKET-URL"
    (nl ++ "Update the read quota metadata of the bucket, indicating the target quota of the bucket."
     ++ nl ++ "The command need to set the target quota with --chargedQuota "
     ++ nl ++ nl ++ "Examples:"
     ++ nl ++ "$ gnfd-cmd -c config.toml buy-quota  --chargedQuota 1000000  gnfd://bucket-name")
    [Uint64Flag chargeQuotaFlag "indicate the target quota to be set for the bucket" true].

(** [cmdGetQuotaInfo]. *)
Definition cmdGetQuotaInfo : Command :=
  mkCommand
    "quota-info"
    getQuotaInfo
    "get quota info of the bucket"
    "BUCKET-URL"
    (nl ++ "Get charged quota, free quota and consumed quota info from storage provider "
     ++ nl ++ nl ++ "Examples:"
     ++ nl ++ "$ gnfd -c config.toml quota-info  gnfd://bucket-name")
    [].

(** A command run twice in a row, as two invocations of the tool against
    the same remote side. *)
Definition twice (action : Context -> M (option error)) (ctx : Context)
  : M (option error * option error) :=
  bind (action ctx) (fun first => bind (action ctx) (fun second => ret (first, second))).

End Descriptors.

(** ** A stub environment

    A chain client with canned answers, as a test double would be: the
    remote state counts the purchases the chain accepted. *)
Module Stub.

Definition client (head : Result unit) (buy : Result string)
    (price : Result (SpStoragePrice string)) (quota : Result QuotaInfo)
  : Client nat unit string :=
  mkClient
    (fun _ st => (head, st))
    (fun _ _ _ st => (buy, match buy with inl _ => S st | inr _ => st end))
    (fun _ st => (price, st))
    (fun _ st => (quota, st)).

(** Decimals are kept as their text; the empty text does not convert. *)
Definition toFloat (d : string) : Result string :=
  if String.eqb d "" then inr (errors_New "decimal string cannot be empty") else inl d.

Definition resolve (ctx : Context) : Result string :=
  match ctx_Args ctx with
  | [url] => inl url
  | _ => inr (errors_New "the args number should be one")
  end.

Definition externals (cl : Result (Client nat unit string)) : Externals :=
  {| chain := nat; BucketInfo := unit; Dec := string; float64 := string;
     Float64 := toFloat; fmt_float64 := fun f => f;
     ErrBucketNotExist := errors_New "bucket not exist";
     toCmdErr := Some;
     getBucketNameByUrl := resolve;
     NewClient := fun _ => cl;
     chargeQuotaFlag := "chargedQuota";
     spAddressFlag := "spAddress" |}.

(** A command line: the bucket locator, --chargedQuota and --spAddress. *)
Definition ctx (bucket : string) (quota : N) (spAddress : string) : Context :=
  mkContext [bucket] (fun _ => quota) (fun _ => spAddress).

Definition ledger : QuotaInfo := mkQuotaInfo 1000000 200000 50000.

Definition prices : SpStoragePrice string := mkSpStoragePrice "0.001" "0.002".

(** A chain that knows the bucket and accepts the purchase. *)
Definition accepting : Client nat unit string :=
  client (inl tt) (inl "0xABC") (inl prices) (inl ledger).

(** A chain that knows the bucket and rejects the purchase and the reads. *)
Definition rejecting : Client nat unit string :=
  client (inl tt) (inr (errors_New "insufficient funds"))
    (inr (errors_New "unknown storage provider")) (inr (errors_New "quota service unavailable")).

(** A chain that does not know the bucket. *)
Definition missing : Client nat unit string :=
  client (inr (errors_New "No such bucket")) (inl "0xABC") (inl prices) (inl ledger).


(** The bucket is known, the later calls are aborted. *)
Definition canceledLate : Client nat unit string :=
  client (inl tt) (inr context_Canceled) (inr context_Canceled) (inr context_Canceled).

(** Malformed price data: the read price, or the store price. *)
Definition badReadPrice : Client nat unit string :=
  client (inl tt) (inl "0xABC") (inl (mkSpStoragePrice "" "0.002")) (inl ledger).

Definition badStorePrice : Client nat unit string :=
  client (inl tt) (inl "0xABC") (inl (mkSpStoragePrice "0.001" "")) (inl ledger).

Definition world0 (cl : Result (Client nat unit string)) : @World (externals cl) :=
  @mkWorld (externals cl) 0 [] [].

End Stub.

(** Command lines for the stub environment whose flag lookups depend on
    the name asked for, and one without the bucket locator. *)
Module Probe.

Definition ctx (quota otherQuota : N) (spAddress otherText : string) : Context :=
  mkContext ["b1"%string]
    (fun name => if String.eqb name "chargedQuota" then quota else otherQuota)
    (fun name => if String.eqb name "spAddress" then spAddress else otherText).

Definition noLocator : Context :=
  mkContext [] (fun _ => 1000000%N) (fun _ => "0x70"%string).

Definition noClient : Result (Client nat unit string) :=
  inr (errors_New "failed to create client").





End Probe.

(** ** Formatting lemmas *)

Lemma app2 {A : Type} (l : list A) (a b : A) : (l ++ [a]) ++ [b] = l ++ [a; b].
Proof. now rewrite <- app_assoc. Qed.

(** A decimal rendering followed by a space can be read back: the digits
    stop at the space. *)
Lemma string_of_uint_sep_inj (d d' : Decimal.uint) (r r' : string) :
  (NilEmpty.string_of_uint d ++ String " " r = NilEmpty.string_of_uint d' ++ String " " r')%string ->
  d = d' /\ r = r'.
Proof.
  revert d'. induction d; intros d' E; destruct d'; cbn in E;
    try discriminate E;
    try (injection E as E; apply IHd in E; destruct E as [-> ->]; now split).
  injection E as ->. now split.
Qed.

Lemma decimal_sep_inj (a b : N) (r r' : string) :
  (decimal a ++ String " " r = decimal b ++ String " " r')%string -> a = b /\ r = r'.
Proof.
  unfold decimal. intros E. apply string_of_uint_sep_inj in E. destruct E as [E ->].
  split; [|reflexivity].
  rewrite <- (DecimalN.Unsigned.of_to a), <- (DecimalN.Unsigned.of_to b). now rewrite E.
Qed.

(** Two ledgers with the same report are the same ledger. *)
Lemma quotaReport_inj (q q' : QuotaInfo) : quotaReport q = quotaReport q' -> q = q'.
Proof.
  destruct q as [a b c], q' as [a' b' c']. unfold quotaReport, nl.
  cbn [ReadQuotaSize SPFreeReadQuotaSize ReadConsumedSize append].
  intros E.
  repeat match type of E with String _ _ = String _ _ => injection E as E end.
  apply decimal_sep_inj in E. destruct E as [-> E].
  repeat match type of E with String _ _ = String _ _ => injection E as E end.
  apply decimal_sep_inj in E. destruct E as [-> E].
  repeat match type of E with String _ _ = String _ _ => injection E as E end.
  apply decimal_sep_inj in E. destruct E as [-> E].
  reflexivity.
Qed.

Lemma Sprintf_quota_report (quotaInfo : QuotaInfo) :
  Sprintf ("quota info:" ++ nl ++ " charged quota:%d " ++ nl ++ "free quota:%d "
             ++ nl ++ " consumed quota:%d " ++ nl)%string
    [ArgD (ReadQuotaSize quotaInfo); ArgD (SPFreeReadQuotaSize quotaInfo);
     ArgD (ReadConsumedSize quotaInfo)]
  = quotaReport quotaInfo.
Proof. reflexivity. Qed.

Lemma Sprintf_buy_quota (bucketName txnHash : string) :
  Sprintf ("buy quota for bucket: %s successfully, txn hash: %s" ++ nl)%string
    [ArgS bucketName; ArgS txnHash]
  = ("buy quota for bucket: " ++ bucketName ++ " successfully, txn hash: " ++ txnHash ++ nl)%string.
Proof. reflexivity. Qed.

(** ** The paths of the commands *)

Section Paths.

Context {env : Externals}.

Ltac run_cmd :=
  unfold buyQuotaForBucket, getQuotaPrice, getQuotaInfo,
    bind, invoke, ret, Println, Printf, write; cbn [fst snd remote calls stdout].

(** Every path of [buyQuotaForBucket], by the results of its steps. *)
Lemma buyQuotaForBucket_resolve_fails ctx w err :
  getBucketNameByUrl ctx = inr err ->
  buyQuotaForBucket ctx w = (toCmdErr err, w).
Proof. intros E. run_cmd. now rewrite E. Qed.

Lemma buyQuotaForBucket_client_fails ctx w bucketName err :
  getBucketNameByUrl ctx = inl bucketName ->
  NewClient ctx = inr err ->
  buyQuotaForBucket ctx w = (toCmdErr err, w).
Proof. intros E1 E2. run_cmd. now rewrite E1, E2. Qed.

Lemma buyQuotaForBucket_head_fails ctx w bucketName client err remote1 :
  getBucketNameByUrl ctx = inl bucketName ->
  NewClient ctx = inl client ->
  HeadBucket client bucketName (remote w) = (inr err, remote1) ->
  buyQuotaForBucket ctx w =
    (toCmdErr ErrBucketNotExist,
     mkWorld remote1 (calls w ++ [CallHeadBucket bucketName]) (stdout w)).
Proof. intros E1 E2 E3. run_cmd. now rewrite E1, E2, E3. Qed.

Lemma buyQuotaForBucket_zero_target ctx w bucketName client info remote1 :
  getBucketNameByUrl ctx = inl bucketName ->
  NewClient ctx = inl client ->
  HeadBucket client bucketName (remote w) = (inl info, remote1) ->
  ctx_Uint64 ctx chargeQuotaFlag = 0%N ->
  buyQuotaForBucket ctx w =
    (toCmdErr (errors_New "target quota not set"),
     mkWorld remote1 (calls w ++ [CallHeadBucket bucketName]) (stdout w)).
Proof. intros E1 E2 E3 E4. run_cmd. now rewrite E1, E2, E3, E4. Qed.

Lemma buyQuotaForBucket_submitted ctx w bucketName client info remote1 r remote2 :
  getBucketNameByUrl ctx = inl bucketName ->
  NewClient ctx = inl client ->
  HeadBucket client bucketName (remote w) = (inl info, remote1) ->
  ctx_Uint64 ctx chargeQuotaFlag <> 0%N ->
  BuyQuotaForBucket client bucketName (ctx_Uint64 ctx chargeQuotaFlag) blockOption remote1
    = (r, remote2) ->
  buyQuotaForBucket ctx w =
    (None,
     mkWorld remote2
       (calls w ++ [CallHeadBucket bucketName;
                    CallBuyQuotaForBucket bucketName (ctx_Uint64 ctx chargeQuotaFlag) blockOption])
       (stdout w ++
          [match r with
           | inr err => Sprintln ["buy quota error:"; Error err]
           | inl txnHash =>
               ("buy quota for bucket: " ++ bucketName ++ " successfully, txn hash: "
                  ++ txnHash ++ nl)%string
           end])).
Proof.
  intros E1 E2 E3 E4 E5. run_cmd. rewrite E1, E2, E3.
  apply N.eqb_neq in E4. rewrite E4.
  cbn [fst snd remote calls stdout]. fold blockOption. rewrite E5.
  destruct r; cbn [fst snd remote calls stdout]; rewrite app2;
    [rewrite Sprintf_buy_quota|]; reflexivity.
Qed.

(** Every path of [getQuotaPrice]. *)
Lemma getQuotaPrice_client_fails ctx w err :
  NewClient ctx = inr err ->
  getQuotaPrice ctx w = (toCmdErr err, w).
Proof. intros E. run_cmd. now rewrite E. Qed.

Lemma getQuotaPrice_no_address ctx w client :
  NewClient ctx = inl client ->
  ctx_String ctx spAddressFlag = ""%string ->
  getQuotaPrice ctx w = (toCmdErr (errors_New "fail to fetch sp address"), w).
Proof. intros E1 E2. run_cmd. now rewrite E1, E2. Qed.

Lemma getQuotaPrice_query_fails ctx w client err remote1 :
  NewClient ctx = inl client ->
  ctx_String ctx spAddressFlag <> ""%string ->
  GetStoragePrice client (ctx_String ctx spAddressFlag) (remote w) = (inr err, remote1) ->
  getQuotaPrice ctx w =
    (toCmdErr err,
     mkWorld remote1 (calls w ++ [CallGetStoragePrice (ctx_String ctx spAddressFlag)]) (stdout w)).
Proof.
  intros E1 E2 E3. run_cmd. rewrite E1.
  apply String.eqb_neq in E2. rewrite E2. now rewrite E3.
Qed.

Lemma getQuotaPrice_read_price_malformed ctx w client price remote1 err :
  NewClient ctx = inl client ->
  ctx_String ctx spAddressFlag <> ""%string ->
  GetStoragePrice client (ctx_String ctx spAddressFlag) (remote w) = (inl price, remote1) ->
  Float64 (ReadPrice price) = inr err ->
  getQuotaPrice ctx w =
    (Some err,
     mkWorld remote1 (calls w ++ [CallGetStoragePrice (ctx_String ctx spAddressFlag)])
       (stdout w ++ [Sprintln ["get quota price error:"; Error err]])).
Proof.
  intros E1 E2 E3 E4. run_cmd. rewrite E1.
  apply String.eqb_neq in E2. rewrite E2. now rewrite E3, E4.
Qed.

Lemma getQuotaPrice_store_price_malformed ctx w client price remote1 quotaPrice err :
  NewClient ctx = inl client ->
  ctx_String ctx spAddressFlag <> ""%string ->
  GetStoragePrice client (ctx_String ctx spAddressFlag) (remote w) = (inl price, remote1) ->
  Float64 (ReadPrice price) = inl quotaPrice ->
  Float64 (StorePrice price) = inr err ->
  getQuotaPrice ctx w =
    (Some err,
     mkWorld remote1 (calls w ++ [CallGetStoragePrice (ctx_String ctx spAddressFlag)])
       (stdout w ++ [Sprintln ["get storage price error:"; Error err]])).
Proof.
  intros E1 E2 E3 E4 E5. run_cmd. rewrite E1.
  apply String.eqb_neq in E2. rewrite E2. now rewrite E3, E4, E5.
Qed.

Lemma getQuotaPrice_prices ctx w client price remote1 quotaPrice storagePrice :
  NewClient ctx = inl client ->
  ctx_String ctx spAddressFlag <> ""%string ->
  GetStoragePrice client (ctx_String ctx spAddressFlag) (remote w) = (inl price, remote1) ->
  Float64 (ReadPrice price) = inl quotaPrice ->
  Float64 (StorePrice price) = inl storagePrice ->
  getQuotaPrice ctx w =
    (None,
     mkWorld remote1 (calls w ++ [CallGetStoragePrice (ctx_String ctx spAddressFlag)])
       (stdout w ++
          [Sprintln ["get bucket read quota price:"; fmt_float64 quotaPrice; " wei/byte"];
           Sprintln ["get bucket storage price:"; fmt_float64 storagePrice; " wei/byte"]])).
Proof.
  intros E1 E2 E3 E4 E5. run_cmd. rewrite E1.
  apply String.eqb_neq in E2. rewrite E2. rewrite E3, E4, E5.
  cbn [fst snd remote calls stdout]. now rewrite app2.
Qed.

(** Every path of [getQuotaInfo]. *)
Lemma getQuotaInfo_resolve_fails ctx w err :
  getBucketNameByUrl ctx = inr err ->
  getQuotaInfo ctx w = (toCmdErr err, w).
Proof. intros E. run_cmd. now rewrite E. Qed.

Lemma getQuotaInfo_client_fails ctx w bucketName err :
  getBucketNameByUrl ctx = inl bucketName ->
  NewClient ctx = inr err ->
  getQuotaInfo ctx w = (toCmdErr err, w).
Proof. intros E1 E2. run_cmd. now rewrite E1, E2. Qed.

Lemma getQuotaInfo_head_fails ctx w bucketName client err remote1 :
  getBucketNameByUrl ctx = inl bucketName ->
  NewClient ctx = inl client ->
  HeadBucket client bucketName (remote w) = (inr err, remote1) ->
  getQuotaInfo ctx w =
    (toCmdErr ErrBucketNotExist,
     mkWorld remote1 (calls w ++ [CallHeadBucket bucketName]) (stdout w)).
Proof. intros E1 E2 E3. run_cmd. now rewrite E1, E2, E3. Qed.

Lemma getQuotaInfo_read_fails ctx w bucketName client info remote1 err remote2 :
  getBucketNameByUrl ctx = inl bucketName ->
  NewClient ctx = inl client ->
  HeadBucket client bucketName (remote w) = (inl info, remote1) ->
  GetBucketReadQuota client bucketName remote1 = (inr err, remote2) ->
  getQuotaInfo ctx w =
    (toCmdErr err,
     mkWorld remote2
       (calls w ++ [CallHeadBucket bucketName; CallGetBucketReadQuota bucketName])
       (stdout w)).
Proof.
  intros E1 E2 E3 E4. run_cmd. rewrite E1, E2, E3.
  cbn [fst snd remote calls stdout]. rewrite E4. now rewrite app2.
Qed.

Lemma getQuotaInfo_read ctx w bucketName client info remote1 quotaInfo remote2 :
  getBucketNameByUrl ctx = inl bucketName ->
  NewClient ctx = inl client ->
  HeadBucket client bucketName (remote w) = (inl info, remote1) ->
  GetBucketReadQuota client bucketName remote1 = (inl quotaInfo, remote2) ->
  getQuotaInfo ctx w =
    (None,
     mkWorld remote2
       (calls w ++ [CallHeadBucket bucketName; CallGetBucketReadQuota bucketName])
       (stdout w ++ [quotaReport quotaInfo])).
Proof.
  intros E1 E2 E3 E4. run_cmd. rewrite E1, E2, E3.
  cbn [fst snd remote calls stdout]. rewrite E4.
  cbn [fst snd remote calls stdout]. now rewrite app2, Sprintf_quota_report.
Qed.

(** The calls [buyQuotaForBucket] issues are a prefix of: the existence
    check, then one submission with the block option. *)
Lemma buyQuotaForBucket_issued ctx w :
  exists issued,
    calls (snd (buyQuotaForBucket ctx w)) = calls w ++ issued /\
    (issued = [] \/
     (exists bucketName, issued = [CallHeadBucket bucketName]) \/
     (exists bucketName,
        ctx_Uint64 ctx chargeQuotaFlag <> 0%N /\
        issued = [CallHeadBucket bucketName;
                  CallBuyQuotaForBucket bucketName (ctx_Uint64 ctx chargeQuotaFlag) blockOption])).
Proof.
  destruct (getBucketNameByUrl ctx) as [bucketName|err] eqn:E1.
  2:{ exists []. rewrite (buyQuotaForBucket_resolve_fails _ _ _ E1).
      cbn. rewrite app_nil_r. auto. }
  destruct (NewClient ctx) as [client|err] eqn:E2.
  2:{ exists []. rewrite (buyQuotaForBucket_client_fails _ _ _ _ E1 E2).
      cbn. rewrite app_nil_r. auto. }
  destruct (HeadBucket client bucketName (remote w)) as [[info|err] remote1] eqn:E3.
  2:{ exists [CallHeadBucket bucketName].
      rewrite (buyQuotaForBucket_head_fails _ _ _ _ _ _ E1 E2 E3). cbn. eauto. }
  destruct (N.eq_dec (ctx_Uint64 ctx chargeQuotaFlag) 0) as [E4|E4].
  { exists [CallHeadBucket bucketName].
    rewrite (buyQuotaForBucket_zero_target _ _ _ _ _ _ E1 E2 E3 E4). cbn. eauto. }
  destruct (BuyQuotaForBucket client bucketName (ctx_Uint64 ctx chargeQuotaFlag)
              blockOption remote1) as [r remote2] eqn:E5.
  eexists. rewrite (buyQuotaForBucket_submitted _ _ _ _ _ _ _ _ E1 E2 E3 E4 E5).
  cbn. split; [reflexivity|]. right; right. eauto.
Qed.

End Paths.


(** ** Properties of the commands *)

Section Claims.

Context {env : Externals}.

(** C1 (amended).  When the target quota is 0, [buyQuotaForBucket] never
    invokes the submission step.  When moreover the bucket name resolves,
    the client is constructed and the existence check succeeds, it fails
    with the input error "target quota not set" (converted by [toCmdErr],
    which is assumed to return a non-nil error) after exactly one call on
    the chain client: the bucket existence check. *)
Theorem buyQuota_zero_target_rejected ctx w :
  ctx_Uint64 ctx chargeQuotaFlag = 0%N ->
  (forall err, toCmdErr err <> None) ->
  filter is_submission (calls (snd (buyQuotaForBucket ctx w)))
    = filter is_submission (calls w) /\
  forall bucketName client info remote1,
    getBucketNameByUrl ctx = inl bucketName ->
    NewClient ctx = inl client ->
    HeadBucket client bucketName (remote w) = (inl info, remote1) ->
    buyQuotaForBucket ctx w =
      (toCmdErr (errors_New "target quota not set"),
       mkWorld remote1 (calls w ++ [CallHeadBucket bucketName]) (stdout w)) /\
    fst (buyQuotaForBucket ctx w) <> None.
Proof.
  intros Hzero Hcmd. split.
  - destruct (buyQuotaForBucket_issued ctx w) as [issued [-> Hshape]].
    rewrite filter_app.
    destruct Hshape as [-> | [[bucketName ->] | [bucketName [Hnz _]]]].
    + now rewrite app_nil_r.
    + cbn. now rewrite app_nil_r.
    + contradiction.
  - intros bucketName client info remote1 E1 E2 E3.
    rewrite (buyQuotaForBucket_zero_target _ _ _ _ _ _ E1 E2 E3 Hzero).
    split; [reflexivity | apply Hcmd].
Qed.

(** C2.  When the bucket exists, the target quota is not 0 and the
    submission call fails, [buyQuotaForBucket] prints the diagnostic
    "buy quota error: <text of the error>" and returns nil: the failure is
    not returned as an error. *)
Theorem buyQuota_submission_failure_is_soft ctx w bucketName client info remote1 err remote2 :
  getBucketNameByUrl ctx = inl bucketName ->
  NewClient ctx = inl client ->
  HeadBucket client bucketName (remote w) = (inl info, remote1) ->
  ctx_Uint64 ctx chargeQuotaFlag <> 0%N ->
  BuyQuotaForBucket client bucketName (ctx_Uint64 ctx chargeQuotaFlag) blockOption remote1
    = (inr err, remote2) ->
  buyQuotaForBucket ctx w =
    (None,
     mkWorld remote2
       (calls w ++ [CallHeadBucket bucketName;
                    CallBuyQuotaForBucket bucketName (ctx_Uint64 ctx chargeQuotaFlag) blockOption])
       (stdout w ++ [Sprintln ["buy quota error:"; Error err]])).
Proof.
  intros E1 E2 E3 E4 E5.
  exact (buyQuotaForBucket_submitted _ _ _ _ _ _ _ _ E1 E2 E3 E4 E5).
Qed.

(** C3.  When the existence check [HeadBucket] fails, both
    [buyQuotaForBucket] and [getQuotaInfo] return the bucket-not-exist
    sentinel (converted by [toCmdErr], assumed to return a non-nil error),
    whatever error the chain reported, and stop: the existence check is the
    only call they make, so no submission and no ledger read is attempted,
    and nothing is printed. *)
Theorem missing_bucket_stops_both_commands ctx w bucketName client err remote1 :
  (forall e, toCmdErr e <> None) ->
  getBucketNameByUrl ctx = inl bucketName ->
  NewClient ctx = inl client ->
  HeadBucket client bucketName (remote w) = (inr err, remote1) ->
  let stopped := mkWorld remote1 (calls w ++ [CallHeadBucket bucketName]) (stdout w) in
  buyQuotaForBucket ctx w = (toCmdErr ErrBucketNotExist, stopped) /\
  getQuotaInfo ctx w = (toCmdErr ErrBucketNotExist, stopped) /\
  toCmdErr ErrBucketNotExist <> None /\
  filter is_submission (calls stopped) = filter is_submission (calls w) /\
  filter is_ledger_read (calls stopped) = filter is_ledger_read (calls w).
Proof.
  intros Hcmd E1 E2 E3 stopped. split; [|split; [|split; [|split]]].
  - exact (buyQuotaForBucket_head_fails _ _ _ _ _ _ E1 E2 E3).
  - exact (getQuotaInfo_head_fails _ _ _ _ _ _ E1 E2 E3).
  - apply Hcmd.
  - unfold stopped. cbn [calls]. rewrite filter_app. cbn. apply app_nil_r.
  - unfold stopped. cbn [calls]. rewrite filter_app. cbn. apply app_nil_r.
Qed.

(** C4.  Every submission [buyQuotaForBucket] makes carries the broadcast
    mode BLOCK (wait for inclusion): each [BuyQuotaForBucket] call it
    issues has options whose mode is exactly that, and an invocation that
    reaches the submission step issues it with these options. *)
Theorem buyQuota_submits_in_block_mode ctx w :
  exists issued,
    calls (snd (buyQuotaForBucket ctx w)) = calls w ++ issued /\
    (forall bucketName targetQuota opt,
       In (CallBuyQuotaForBucket bucketName targetQuota opt) issued ->
       TxOpts opt = Some (mkTxOption (Some BROADCAST_MODE_BLOCK))) /\
    (forall bucketName client info remote1,
       getBucketNameByUrl ctx = inl bucketName ->
       NewClient ctx = inl client ->
       HeadBucket client bucketName (remote w) = (inl info, remote1) ->
       ctx_Uint64 ctx chargeQuotaFlag <> 0%N ->
       In (CallBuyQuotaForBucket bucketName (ctx_Uint64 ctx chargeQuotaFlag) blockOption) issued).
Proof.
  destruct (buyQuotaForBucket_issued ctx w) as [issued [Hcalls Hshape]].
  exists issued. split; [exact Hcalls|]. split.
  - intros bucketName targetQuota opt Hin.
    destruct Hshape as [-> | [[b ->] | [b [_ ->]]]].
    + destruct Hin.
    + destruct Hin as [Hin|[]]. discriminate Hin.
    + destruct Hin as [Hin|[Hin|[]]]; [discriminate Hin|].
      injection Hin as _ _ <-. reflexivity.
  - intros bucketName client info remote1 E1 E2 E3 E4.
    destruct (BuyQuotaForBucket client bucketName (ctx_Uint64 ctx chargeQuotaFlag)
                blockOption remote1) as [r remote2] eqn:E5.
    rewrite (buyQuotaForBucket_submitted _ _ _ _ _ _ _ _ E1 E2 E3 E4 E5) in Hcalls.
    cbn [snd calls] in Hcalls. apply app_inv_head in Hcalls. subst issued.
    right; left; reflexivity.
Qed.

(** C5.  When the storage-provider address is empty, [getQuotaPrice]
    returns an error ([toCmdErr] assumed to return a non-nil error) and
    leaves the world as it was: no call on the chain client, so no price
    query, and nothing printed.  With a client constructed the error is the
    missing-address error "fail to fetch sp address". *)
Theorem getQuotaPrice_empty_address_rejected ctx w :
  ctx_String ctx spAddressFlag = ""%string ->
  (forall e, toCmdErr e <> None) ->
  snd (getQuotaPrice ctx w) = w /\
  fst (getQuotaPrice ctx w) <> None /\
  forall client,
    NewClient ctx = inl client ->
    fst (getQuotaPrice ctx w) = toCmdErr (errors_New "fail to fetch sp address").
Proof.
  intros Haddr Hcmd.
  destruct (NewClient ctx) as [client|err] eqn:E.
  - rewrite (getQuotaPrice_no_address _ _ _ E Haddr). cbn [fst snd].
    split; [reflexivity|]. split; [apply Hcmd|]. intros; reflexivity.
  - rewrite (getQuotaPrice_client_fails _ _ _ E). cbn [fst snd].
    split; [reflexivity|]. split; [apply Hcmd|]. intros client Hc; discriminate Hc.
Qed.


(** C7.  When the price query succeeds and a conversion to float64 fails,
    [getQuotaPrice] returns the (non-nil) conversion error and prints one
    diagnostic line and nothing else.  When it is the store price that fails
    to convert, the line printed is not the read-price line: the read price
    already converted is dropped. *)
Theorem getQuotaPrice_malformed_price_fails ctx w client price remote1 err :
  NewClient ctx = inl client ->
  ctx_String ctx spAddressFlag <> ""%string ->
  GetStoragePrice client (ctx_String ctx spAddressFlag) (remote w) = (inl price, remote1) ->
  let queried :=
    mkWorld remote1 (calls w ++ [CallGetStoragePrice (ctx_String ctx spAddressFlag)]) in
  (Float64 (ReadPrice price) = inr err ->
   getQuotaPrice ctx w =
     (Some err, queried (stdout w ++ [Sprintln ["get quota price error:"; Error err]]))) /\
  (forall quotaPrice,
     Float64 (ReadPrice price) = inl quotaPrice ->
     Float64 (StorePrice price) = inr err ->
     getQuotaPrice ctx w =
       (Some err, queried (stdout w ++ [Sprintln ["get storage price error:"; Error err]])) /\
     Sprintln ["get storage price error:"; Error err]
       <> Sprintln ["get bucket read quota price:"; fmt_float64 quotaPrice; " wei/byte"]).
Proof.
  intros E1 E2 E3 queried. split.
  - intros E4. exact (getQuotaPrice_read_price_malformed _ _ _ _ _ _ E1 E2 E3 E4).
  - intros quotaPrice E4 E5. split.
    + exact (getQuotaPrice_store_price_malformed _ _ _ _ _ _ _ E1 E2 E3 E4 E5).
    + unfold Sprintln. cbn. discriminate.
Qed.

(** C8.  When the bucket passes the existence check and the ledger read
    succeeds, [getQuotaInfo] returns nil and prints one quota report made
    of the three counters the chain client returned, in decimal: charged
    quota, free quota of the provider, consumed quota.  The report
    determines the three counters: a different ledger prints a different
    report. *)
Theorem getQuotaInfo_reports_ledger_unmodified
    ctx w bucketName client info remote1 quotaInfo remote2 :
  getBucketNameByUrl ctx = inl bucketName ->
  NewClient ctx = inl client ->
  HeadBucket client bucketName (remote w) = (inl info, remote1) ->
  GetBucketReadQuota client bucketName remote1 = (inl quotaInfo, remote2) ->
  getQuotaInfo ctx w =
    (None,
     mkWorld remote2
       (calls w ++ [CallHeadBucket bucketName; CallGetBucketReadQuota bucketName])
       (stdout w ++
          [("quota info:" ++ nl ++
            " charged quota:" ++ decimal (ReadQuotaSize quotaInfo) ++ " " ++ nl ++
            "free quota:" ++ decimal (SPFreeReadQuotaSize quotaInfo) ++ " " ++ nl ++
            " consumed quota:" ++ decimal (ReadConsumedSize quotaInfo) ++ " " ++ nl)%string])) /\
  (forall other, quotaReport other = quotaReport quotaInfo -> other = quotaInfo).
Proof.
  intros E1 E2 E3 E4. split.
  - exact (getQuotaInfo_read _ _ _ _ _ _ _ _ E1 E2 E3 E4).
  - intros other. apply quotaReport_inj.
Qed.

(** C9.  When the bucket exists, the target quota is not 0 and the chain
    client accepts the submission and returns a transaction hash,
    [buyQuotaForBucket] returns nil, prints that hash in its success line,
    and has invoked the submission exactly once, after the existence
    check. *)
Theorem buyQuota_success_reports_handle ctx w bucketName client info remote1 txnHash remote2 :
  getBucketNameByUrl ctx = inl bucketName ->
  NewClient ctx = inl client ->
  HeadBucket client bucketName (remote w) = (inl info, remote1) ->
  ctx_Uint64 ctx chargeQuotaFlag <> 0%N ->
  BuyQuotaForBucket client bucketName (ctx_Uint64 ctx chargeQuotaFlag) blockOption remote1
    = (inl txnHash, remote2) ->
  buyQuotaForBucket ctx w =
    (None,
     mkWorld remote2
       (calls w ++ [CallHeadBucket bucketName;
                    CallBuyQuotaForBucket bucketName (ctx_Uint64 ctx chargeQuotaFlag) blockOption])
       (stdout w ++
          [("buy quota for bucket: " ++ bucketName ++ " successfully, txn hash: "
              ++ txnHash ++ nl)%string])) /\
  length (filter is_submission (calls (snd (buyQuotaForBucket ctx w))))
    = S (length (filter is_submission (calls w))).
Proof.
  intros E1 E2 E3 E4 E5.
  rewrite (buyQuotaForBucket_submitted _ _ _ _ _ _ _ _ E1 E2 E3 E4 E5).
  split; [reflexivity|].
  cbn [snd calls]. rewrite filter_app, length_app. cbn. lia.
Qed.


End Claims.


(** ** The properties on the stub environment *)

(** C1, as stated, fails: with target quota 0 the existence check is made
    before the quota is looked at, so the chain client is called; and when
    the bucket is missing the error is the bucket-not-exist one, not the
    input error. *)
Lemma buyQuota_zero_target_checks_bucket_first :
  ctx_Uint64 (Stub.ctx "b1" 0 "") "chargedQuota" = 0%N /\
  calls (Stub.world0 (inl Stub.accepting)) = [] /\
  buyQuotaForBucket (env := Stub.externals (inl Stub.accepting))
      (Stub.ctx "b1" 0 "") (Stub.world0 _)
    = (Some (errors_New "target quota not set"),
       @mkWorld (Stub.externals (inl Stub.accepting)) 0%nat [CallHeadBucket "b1"] []) /\
  buyQuotaForBucket (env := Stub.externals (inl Stub.missing))
      (Stub.ctx "b1" 0 "") (Stub.world0 _)
    = (Some (errors_New "bucket not exist"),
       @mkWorld (Stub.externals (inl Stub.missing)) 0%nat [CallHeadBucket "b1"] []).
Proof. repeat split. Qed.

Lemma buyQuota_zero_target_rejected_witness :
  buyQuotaForBucket (env := Stub.externals (inl Stub.accepting))
      (Stub.ctx "b1" 0 "") (Stub.world0 _)
    = (Some (errors_New "target quota not set"),
       @mkWorld (Stub.externals (inl Stub.accepting)) 0%nat [CallHeadBucket "b1"] []) /\
  filter is_submission
    (calls (snd (buyQuotaForBucket (env := Stub.externals (inl Stub.accepting))
                   (Stub.ctx "b1" 0 "") (Stub.world0 _)))) = [].
Proof.
  destruct (buyQuota_zero_target_rejected (env := Stub.externals (inl Stub.accepting))
              (Stub.ctx "b1" 0 "") (Stub.world0 _)) as [Hnone Hpath].
  - reflexivity.
  - intros err; discriminate.
  - split; [|exact Hnone].
    destruct (Hpath "b1"%string Stub.accepting tt 0%nat) as [Hrun _];
      [reflexivity | reflexivity | reflexivity | exact Hrun].
Defined.

Lemma buyQuota_submission_failure_is_soft_witness :
  buyQuotaForBucket (env := Stub.externals (inl Stub.rejecting))
      (Stub.ctx "b1" 1000000 "") (Stub.world0 _)
    = (None,
       @mkWorld (Stub.externals (inl Stub.rejecting)) 0%nat
         [CallHeadBucket "b1"; CallBuyQuotaForBucket "b1" 1000000 blockOption]
         [("buy quota error: insufficient funds" ++ nl)%string]).
Proof.
  apply (buyQuota_submission_failure_is_soft (env := Stub.externals (inl Stub.rejecting))
           (Stub.ctx "b1" 1000000 "") (Stub.world0 _) "b1"%string Stub.rejecting tt 0%nat
           (errors_New "insufficient funds") 0%nat);
    [reflexivity | reflexivity | reflexivity | cbn; lia | reflexivity].
Defined.

Lemma missing_bucket_stops_both_commands_witness :
  buyQuotaForBucket (env := Stub.externals (inl Stub.missing))
      (Stub.ctx "b1" 1000000 "") (Stub.world0 _)
    = (Some (errors_New "bucket not exist"),
       @mkWorld (Stub.externals (inl Stub.missing)) 0%nat [CallHeadBucket "b1"] []) /\
  getQuotaInfo (env := Stub.externals (inl Stub.missing))
      (Stub.ctx "b1" 1000000 "") (Stub.world0 _)
    = (Some (errors_New "bucket not exist"),
       @mkWorld (Stub.externals (inl Stub.missing)) 0%nat [CallHeadBucket "b1"] []).
Proof.
  destruct (missing_bucket_stops_both_commands (env := Stub.externals (inl Stub.missing))
              (Stub.ctx "b1" 1000000 "") (Stub.world0 _) "b1"%string Stub.missing
              (errors_New "No such bucket") 0%nat) as [Hbuy [Hinfo _]].
  - intros e; discriminate.
  - reflexivity.
  - reflexivity.
  - reflexivity.
  - split; [exact Hbuy | exact Hinfo].
Defined.

Lemma buyQuota_submits_in_block_mode_witness :
  exists issued,
    issued = [CallHeadBucket "b1"; CallBuyQuotaForBucket "b1" 1000000 blockOption] /\
    Forall (fun call =>
              match call with
              | CallBuyQuotaForBucket _ _ opt =>
                  TxOpts opt = Some (mkTxOption (Some BROADCAST_MODE_BLOCK))
              | _ => True
              end) issued.
Proof.
  destruct (buyQuota_submits_in_block_mode (env := Stub.externals (inl Stub.accepting))
              (Stub.ctx "b1" 1000000 "") (Stub.world0 _)) as [issued [Hcalls [Hmode _]]].
  exists issued. cbn in Hcalls. split; [symmetry; exact Hcalls|].
  subst issued. constructor; [exact I|]. constructor; [|constructor].
  apply (Hmode "b1"%string 1000000%N blockOption). right; left; reflexivity.
Defined.

Lemma getQuotaPrice_empty_address_rejected_witness :
  getQuotaPrice (env := Stub.externals (inl Stub.accepting))
      (Stub.ctx "b1" 0 "") (Stub.world0 _)
    = (Some (errors_New "fail to fetch sp address"), Stub.world0 _).
Proof.
  destruct (getQuotaPrice_empty_address_rejected (env := Stub.externals (inl Stub.accepting))
              (Stub.ctx "b1" 0 "") (Stub.world0 _)) as [Hworld [_ Herr]].
  - reflexivity.
  - intros e; discriminate.
  - rewrite (surjective_pairing (getQuotaPrice _ _)).
    rewrite Hworld, (Herr Stub.accepting eq_refl). reflexivity.
Defined.



Lemma getQuotaPrice_malformed_price_fails_witness :
  getQuotaPrice (env := Stub.externals (inl Stub.badReadPrice))
      (Stub.ctx "b1" 0 "0x70") (Stub.world0 _)
    = (Some (errors_New "decimal string cannot be empty"),
       @mkWorld (Stub.externals (inl Stub.badReadPrice)) 0%nat [CallGetStoragePrice "0x70"]
         [("get quota price error: decimal string cannot be empty" ++ nl)%string]) /\
  getQuotaPrice (env := Stub.externals (inl Stub.badStorePrice))
      (Stub.ctx "b1" 0 "0x70") (Stub.world0 _)
    = (Some (errors_New "decimal string cannot be empty"),
       @mkWorld (Stub.externals (inl Stub.badStorePrice)) 0%nat [CallGetStoragePrice "0x70"]
         [("get storage price error: decimal string cannot be empty" ++ nl)%string]).
Proof.
  split.
  - apply (getQuotaPrice_malformed_price_fails (env := Stub.externals (inl Stub.badReadPrice))
             (Stub.ctx "b1" 0 "0x70") (Stub.world0 _) Stub.badReadPrice
             (mkSpStoragePrice ""%string "0.002"%string) 0%nat
             (errors_New "decimal string cannot be empty"));
      [reflexivity | cbn; discriminate | reflexivity | reflexivity].
  - apply (getQuotaPrice_malformed_price_fails (env := Stub.externals (inl Stub.badStorePrice))
             (Stub.ctx "b1" 0 "0x70") (Stub.world0 _) Stub.badStorePrice
             (mkSpStoragePrice "0.001"%string ""%string) 0%nat
             (errors_New "decimal string cannot be empty")
             eq_refl) with (quotaPrice := "0.001"%string);
      [cbn; discriminate | reflexivity | reflexivity | reflexivity].
Defined.

Lemma getQuotaInfo_reports_ledger_unmodified_witness :
  getQuotaInfo (env := Stub.externals (inl Stub.accepting))
      (Stub.ctx "b1" 0 "") (Stub.world0 _)
    = (None,
       @mkWorld (Stub.externals (inl Stub.accepting)) 0%nat
         [CallHeadBucket "b1"; CallGetBucketReadQuota "b1"]
         [("quota info:" ++ nl ++ " charged quota:1000000 " ++ nl ++ "free quota:200000 "
             ++ nl ++ " consumed quota:50000 " ++ nl)%string]).
Proof.
  apply (getQuotaInfo_reports_ledger_unmodified (env := Stub.externals (inl Stub.accepting))
           (Stub.ctx "b1" 0 "") (Stub.world0 _) "b1"%string Stub.accepting tt 0%nat
           Stub.ledger 0%nat);
    reflexivity.
Defined.

Lemma buyQuota_success_reports_handle_witness :
  buyQuotaForBucket (env := Stub.externals (inl Stub.accepting))
      (Stub.ctx "b1" 1000000 "") (Stub.world0 _)
    = (None,
       @mkWorld (Stub.externals (inl Stub.accepting)) 1%nat
         [CallHeadBucket "b1"; CallBuyQuotaForBucket "b1" 1000000 blockOption]
         [("buy quota for bucket: b1 successfully, txn hash: 0xABC" ++ nl)%string]) /\
  length (filter is_submission
            (calls (snd (buyQuotaForBucket (env := Stub.externals (inl Stub.accepting))
                           (Stub.ctx "b1" 1000000 "") (Stub.world0 _))))) = 1%nat.
Proof.
  apply (buyQuota_success_reports_handle (env := Stub.externals (inl Stub.accepting))
           (Stub.ctx "b1" 1000000 "") (Stub.world0 _) "b1"%string Stub.accepting tt 0%nat
           "0xABC"%string 1%nat);
    [reflexivity | reflexivity | reflexivity | cbn; lia | reflexivity].
Defined.



(** ** Further behaviour of the commands *)

Lemma append_assoc (a b c : string) : ((a ++ b) ++ c)%string = (a ++ (b ++ c))%string.
Proof. induction a as [|ch a IH]; cbn; [reflexivity | now rewrite IH]. Qed.

Section Behaviour.

Context {env : Externals}.

(** Case analysis over the paths of a command, by the results of its
    steps; the run is rewritten to the outcome of the path. *)
Ltac buy_paths ctx w :=
  let E1 := fresh "E1" in let E2 := fresh "E2" in let E3 := fresh "E3" in
  let E4 := fresh "E4" in let E5 := fresh "E5" in
  destruct (getBucketNameByUrl ctx) as [bucketName|err] eqn:E1;
  [ destruct (NewClient ctx) as [client|err] eqn:E2;
    [ destruct (HeadBucket client bucketName (remote w)) as [[info|err] remote1] eqn:E3;
      [ destruct (N.eq_dec (ctx_Uint64 ctx chargeQuotaFlag) 0) as [E4|E4];
        [ rewrite (buyQuotaForBucket_zero_target _ _ _ _ _ _ E1 E2 E3 E4)
        | destruct (BuyQuotaForBucket client bucketName (ctx_Uint64 ctx chargeQuotaFlag)
                      blockOption remote1) as [r remote2] eqn:E5;
          rewrite (buyQuotaForBucket_submitted _ _ _ _ _ _ _ _ E1 E2 E3 E4 E5) ]
      | rewrite (buyQuotaForBucket_head_fails _ _ _ _ _ _ E1 E2 E3) ]
    | rewrite (buyQuotaForBucket_client_fails _ _ _ _ E1 E2) ]
  | rewrite (buyQuotaForBucket_resolve_fails _ _ _ E1) ];
  cbn [fst snd remote calls stdout].

Ltac price_paths ctx w :=
  let E1 := fresh "E1" in let E2 := fresh "E2" in let E3 := fresh "E3" in
  let E4 := fresh "E4" in let E5 := fresh "E5" in
  destruct (NewClient ctx) as [client|err] eqn:E1;
  [ destruct (string_dec (ctx_String ctx spAddressFlag) "") as [E2|E2];
    [ rewrite (getQuotaPrice_no_address _ _ _ E1 E2)
    | destruct (GetStoragePrice client (ctx_String ctx spAddressFlag) (remote w))
        as [[price|err] remote1] eqn:E3;
      [ destruct (Float64 (ReadPrice price)) as [quotaPrice|err] eqn:E4;
        [ destruct (Float64 (StorePrice price)) as [storagePrice|err] eqn:E5;
          [ rewrite (getQuotaPrice_prices _ _ _ _ _ _ _ E1 E2 E3 E4 E5)
          | rewrite (getQuotaPrice_store_price_malformed _ _ _ _ _ _ _ E1 E2 E3 E4 E5) ]
        | rewrite (getQuotaPrice_read_price_malformed _ _ _ _ _ _ E1 E2 E3 E4) ]
      | rewrite (getQuotaPrice_query_fails _ _ _ _ _ E1 E2 E3) ] ]
  | rewrite (getQuotaPrice_client_fails _ _ _ E1) ];
  cbn [fst snd remote calls stdout].

Ltac info_paths ctx w :=
  let E1 := fresh "E1" in let E2 := fresh "E2" in let E3 := fresh "E3" in
  let E4 := fresh "E4" in
  destruct (getBucketNameByUrl ctx) as [bucketName|err] eqn:E1;
  [ destruct (NewClient ctx) as [client|err] eqn:E2;
    [ destruct (HeadBucket client bucketName (remote w)) as [[info|err] remote1] eqn:E3;
      [ destruct (GetBucketReadQuota client bucketName remote1)
          as [[quotaInfo|err] remote2] eqn:E4;
        [ rewrite (getQuotaInfo_read _ _ _ _ _ _ _ _ E1 E2 E3 E4)
        | rewrite (getQuotaInfo_read_fails _ _ _ _ _ _ _ _ E1 E2 E3 E4) ]
      | rewrite (getQuotaInfo_head_fails _ _ _ _ _ _ E1 E2 E3) ]
    | rewrite (getQuotaInfo_client_fails _ _ _ _ E1 E2) ]
  | rewrite (getQuotaInfo_resolve_fails _ _ _ E1) ];
  cbn [fst snd remote calls stdout].

(** X1.  The calls [buyQuotaForBucket] makes on the chain client are, in
    order: nothing; or the existence check of the resolved bucket; or that
    check followed by one submission for the same bucket, with the target
    quota of the command line (not 0) and the block option.  So it never
    submits twice, never submits without the existence check before, and
    never queries a price or reads a ledger. *)
Theorem buyQuota_call_discipline ctx w :
  exists issued,
    calls (snd (buyQuotaForBucket ctx w)) = calls w ++ issued /\
    (issued = [] \/
     exists bucketName,
       getBucketNameByUrl ctx = inl bucketName /\
       (issued = [CallHeadBucket bucketName] \/
        ctx_Uint64 ctx chargeQuotaFlag <> 0%N /\
        issued = [CallHeadBucket bucketName;
                  CallBuyQuotaForBucket bucketName (ctx_Uint64 ctx chargeQuotaFlag)
                    blockOption])).
Proof.
  buy_paths ctx w.
  - exists [CallHeadBucket bucketName]. split; [reflexivity|]. right. eauto.
  - eexists. split; [reflexivity|]. right. exists bucketName. split; [reflexivity|].
    right. split; [assumption | reflexivity].
  - exists [CallHeadBucket bucketName]. split; [reflexivity|]. right. eauto.
  - exists []. split; [now rewrite app_nil_r | now left].
  - exists []. split; [now rewrite app_nil_r | now left].
Qed.

(** X2.  When [buyQuotaForBucket] returns an error, it has submitted
    nothing and printed nothing. *)
Theorem buyQuota_error_sends_nothing ctx w :
  fst (buyQuotaForBucket ctx w) <> None ->
  filter is_submission (calls (snd (buyQuotaForBucket ctx w)))
    = filter is_submission (calls w) /\
  stdout (snd (buyQuotaForBucket ctx w)) = stdout w.
Proof.
  buy_paths ctx w; intros Herr;
    try (split; [rewrite filter_app; cbn; apply app_nil_r | reflexivity]);
    try (split; reflexivity).
  contradiction.
Qed.

(** X3.  A nil return of [buyQuotaForBucket] only tells that the purchase
    was attempted ([toCmdErr] assumed to return a non-nil error): the
    bucket resolved, the target quota was not 0, the existence check and
    one submission were made, and one line was printed, which is either the
    success line with a transaction hash or the "buy quota error:"
    diagnostic. *)
Theorem buyQuota_nil_means_attempted ctx w :
  (forall e, toCmdErr e <> None) ->
  fst (buyQuotaForBucket ctx w) = None ->
  exists bucketName line,
    getBucketNameByUrl ctx = inl bucketName /\
    ctx_Uint64 ctx chargeQuotaFlag <> 0%N /\
    calls (snd (buyQuotaForBucket ctx w))
      = calls w ++ [CallHeadBucket bucketName;
                    CallBuyQuotaForBucket bucketName (ctx_Uint64 ctx chargeQuotaFlag)
                      blockOption] /\
    stdout (snd (buyQuotaForBucket ctx w)) = stdout w ++ [line] /\
    ((exists err, line = Sprintln ["buy quota error:"; Error err]) \/
     (exists txnHash,
        line = ("buy quota for bucket: " ++ bucketName ++ " successfully, txn hash: "
                  ++ txnHash ++ nl)%string)).
Proof.
  intros Hcmd. buy_paths ctx w; intros Hnil;
    try (exfalso; exact (Hcmd _ Hnil)).
  exists bucketName. eexists. split; [reflexivity|]. split; [assumption|].
  split; [reflexivity|]. split; [reflexivity|].
  destruct r as [txnHash|err]; [right | left]; eauto.
Qed.

(** X4.  When the price query and both conversions succeed,
    [getQuotaPrice] returns nil after one call, the price query for the
    address of the command line, and prints two lines: the read price, then
    the store price, each followed by two spaces and "wei/byte". *)
Theorem getQuotaPrice_prints_both_prices
    ctx w client price remote1 quotaPrice storagePrice :
  NewClient ctx = inl client ->
  ctx_String ctx spAddressFlag <> ""%string ->
  GetStoragePrice client (ctx_String ctx spAddressFlag) (remote w) = (inl price, remote1) ->
  Float64 (ReadPrice price) = inl quotaPrice ->
  Float64 (StorePrice price) = inl storagePrice ->
  getQuotaPrice ctx w =
    (None,
     mkWorld remote1 (calls w ++ [CallGetStoragePrice (ctx_String ctx spAddressFlag)])
       (stdout w ++
          [("get bucket read quota price: " ++ fmt_float64 quotaPrice ++ "  wei/byte" ++ nl)%string;
           ("get bucket storage price: " ++ fmt_float64 storagePrice ++ "  wei/byte" ++ nl)%string])).
Proof.
  intros E1 E2 E3 E4 E5.
  rewrite (getQuotaPrice_prices _ _ _ _ _ _ _ E1 E2 E3 E4 E5).
  unfold Sprintln. cbn [String.concat]. now rewrite !append_assoc.
Qed.

(** X5.  A nil return of [getQuotaPrice] means the prices were printed
    ([toCmdErr] assumed to return a non-nil error): the address was not
    empty, the query succeeded, both prices converted, and the two price
    lines were written. *)
Theorem getQuotaPrice_nil_means_prices_printed ctx w :
  (forall e, toCmdErr e <> None) ->
  fst (getQuotaPrice ctx w) = None ->
  exists client price remote1 quotaPrice storagePrice,
    NewClient ctx = inl client /\
    ctx_String ctx spAddressFlag <> ""%string /\
    GetStoragePrice client (ctx_String ctx spAddressFlag) (remote w) = (inl price, remote1) /\
    Float64 (ReadPrice price) = inl quotaPrice /\
    Float64 (StorePrice price) = inl storagePrice /\
    stdout (snd (getQuotaPrice ctx w))
      = stdout w ++
          [Sprintln ["get bucket read quota price:"; fmt_float64 quotaPrice; " wei/byte"];
           Sprintln ["get bucket storage price:"; fmt_float64 storagePrice; " wei/byte"]].
Proof.
  intros Hcmd. price_paths ctx w; intros Hnil;
    try (exfalso; exact (Hcmd _ Hnil)); try discriminate Hnil.
  exists client, price, remote1, quotaPrice, storagePrice. repeat (split; [assumption ||reflexivity|]).
  reflexivity.
Qed.

(** X6.  [getQuotaPrice] makes at most one call on the chain client, the
    price query, and only for a non-empty address, the one of the command
    line. *)
Theorem getQuotaPrice_call_discipline ctx w :
  exists issued,
    calls (snd (getQuotaPrice ctx w)) = calls w ++ issued /\
    (issued = [] \/
     ctx_String ctx spAddressFlag <> ""%string /\
     issued = [CallGetStoragePrice (ctx_String ctx spAddressFlag)]).
Proof.
  price_paths ctx w;
    try (exists []; split; [now rewrite app_nil_r | now left]);
    (eexists; split; [reflexivity | right; split; [assumption | reflexivity]]).
Qed.

(** X7.  When [getQuotaPrice] returns an error it has printed no price
    line: either nothing, or one diagnostic carrying the text of the very
    error it returns, for the read price or for the store price. *)
Theorem getQuotaPrice_error_prints_no_price ctx w :
  fst (getQuotaPrice ctx w) <> None ->
  stdout (snd (getQuotaPrice ctx w)) = stdout w \/
  exists err label,
    fst (getQuotaPrice ctx w) = Some err /\
    (label = "get quota price error:"%string \/ label = "get storage price error:"%string) /\
    stdout (snd (getQuotaPrice ctx w)) = stdout w ++ [Sprintln [label; Error err]].
Proof.
  price_paths ctx w; intros Herr; try (left; reflexivity).
  - contradiction.
  - right. exists err. eexists. split; [reflexivity|]. split; [right; reflexivity | reflexivity].
  - right. exists err. eexists. split; [reflexivity|]. split; [left; reflexivity | reflexivity].
Qed.

(** X8.  When the price query itself fails, [getQuotaPrice] hands the
    error of the chain client to [toCmdErr] and returns the result; it
    prints nothing. *)
Theorem getQuotaPrice_query_failure ctx w client err remote1 :
  NewClient ctx = inl client ->
  ctx_String ctx spAddressFlag <> ""%string ->
  GetStoragePrice client (ctx_String ctx spAddressFlag) (remote w) = (inr err, remote1) ->
  getQuotaPrice ctx w =
    (toCmdErr err,
     mkWorld remote1 (calls w ++ [CallGetStoragePrice (ctx_String ctx spAddressFlag)]) (stdout w)).
Proof.
  intros E1 E2 E3. exact (getQuotaPrice_query_fails _ _ _ _ _ E1 E2 E3).
Qed.

(** X9.  [getQuotaInfo] only reads: its calls on the chain client are
    nothing, or the existence check of the resolved bucket, or that check
    followed by one ledger read of the same bucket.  It never submits a
    purchase. *)
Theorem getQuotaInfo_call_discipline ctx w :
  exists issued,
    calls (snd (getQuotaInfo ctx w)) = calls w ++ issued /\
    filter is_submission issued = [] /\
    (issued = [] \/
     exists bucketName,
       getBucketNameByUrl ctx = inl bucketName /\
       (issued = [CallHeadBucket bucketName] \/
        issued = [CallHeadBucket bucketName; CallGetBucketReadQuota bucketName])).
Proof.
  info_paths ctx w.
  - eexists. split; [reflexivity|]. split; [reflexivity|]. right. eauto.
  - eexists. split; [reflexivity|]. split; [reflexivity|]. right. eauto.
  - eexists. split; [reflexivity|]. split; [reflexivity|]. right. eauto.
  - exists []. split; [now rewrite app_nil_r|]. split; [reflexivity | now left].
  - exists []. split; [now rewrite app_nil_r|]. split; [reflexivity | now left].
Qed.

(** X10.  The output of [getQuotaInfo] matches its status ([toCmdErr]
    assumed to return a non-nil error): either it returns nil and has
    printed the report of the ledger the chain client returned for the
    resolved bucket, or it returns an error and has printed nothing. *)
Theorem getQuotaInfo_output_matches_status ctx w :
  (forall e, toCmdErr e <> None) ->
  (fst (getQuotaInfo ctx w) = None /\
   exists bucketName client info remote1 quotaInfo remote2,
     getBucketNameByUrl ctx = inl bucketName /\
     NewClient ctx = inl client /\
     HeadBucket client bucketName (remote w) = (inl info, remote1) /\
     GetBucketReadQuota client bucketName remote1 = (inl quotaInfo, remote2) /\
     stdout (snd (getQuotaInfo ctx w)) = stdout w ++ [quotaReport quotaInfo]) \/
  (fst (getQuotaInfo ctx w) <> None /\
   stdout (snd (getQuotaInfo ctx w)) = stdout w).
Proof.
  intros Hcmd. info_paths ctx w; try (right; split; [apply Hcmd | reflexivity]).
  left. split; [reflexivity|].
  exists bucketName, client, info, remote1, quotaInfo, remote2.
  repeat (split; [assumption || reflexivity|]). reflexivity.
Qed.

(** X12.  [buyQuotaForBucket] and [getQuotaInfo] resolve the bucket
    locator first and build the client second, [getQuotaPrice] only builds
    the client: a failure there is handed to [toCmdErr] and returned with
    the world untouched (no call, no output).  When both steps would fail,
    the two bucket commands report the error of the locator. *)
Theorem setup_failure_stops_before_any_call ctx w :
  (forall err,
     getBucketNameByUrl ctx = inr err ->
     buyQuotaForBucket ctx w = (toCmdErr err, w) /\
     getQuotaInfo ctx w = (toCmdErr err, w)) /\
  (forall err,
     NewClient ctx = inr err ->
     getQuotaPrice ctx w = (toCmdErr err, w) /\
     forall bucketName,
       getBucketNameByUrl ctx = inl bucketName ->
       buyQuotaForBucket ctx w = (toCmdErr err, w) /\
       getQuotaInfo ctx w = (toCmdErr err, w)).
Proof.
  split.
  - intros err E1. split.
    + exact (buyQuotaForBucket_resolve_fails _ _ _ E1).
    + exact (getQuotaInfo_resolve_fails _ _ _ E1).
  - intros err E2. split.
    + exact (getQuotaPrice_client_fails _ _ _ E2).
    + intros bucketName E1. split.
      * exact (buyQuotaForBucket_client_fails _ _ _ _ E1 E2).
      * exact (getQuotaInfo_client_fails _ _ _ _ E1 E2).
Qed.

(** X13.  Each command reads the command line only through the flags its
    descriptor declares, with the lookup of the declared type: on two
    command lines that resolve to the same bucket and client and agree on
    the declared flags, the action of the command does the same. *)
Theorem action_reads_declared_flags cmd ctx ctx' w :
  In cmd [cmdGetQuotaPrice; cmdBuyQuota; cmdGetQuotaInfo] ->
  getBucketNameByUrl ctx = getBucketNameByUrl ctx' ->
  NewClient ctx = NewClient ctx' ->
  Forall (fun flag => agree_on flag ctx ctx') (Flags cmd) ->
  Action cmd ctx w = Action cmd ctx' w.
Proof.
  intros Hcmd Hname Hclient Hflags.
  destruct Hcmd as [<- | [<- | [<- | []]]]; cbn [Action Flags cmdGetQuotaPrice cmdBuyQuota
    cmdGetQuotaInfo] in *.
  - apply Forall_inv in Hflags. cbn in Hflags.
    unfold getQuotaPrice. now rewrite Hclient, Hflags.
  - apply Forall_inv in Hflags. cbn in Hflags.
    unfold buyQuotaForBucket. now rewrite Hname, Hclient, Hflags.
  - unfold getQuotaInfo. now rewrite Hname, Hclient.
Qed.

Lemma buyQuotaForBucket_nil_counts ctx w :
  (forall e, toCmdErr e <> None) ->
  fst (buyQuotaForBucket ctx w) = None ->
  length (filter is_submission (calls (snd (buyQuotaForBucket ctx w))))
    = S (length (filter is_submission (calls w))).
Proof.
  intros Hcmd. buy_paths ctx w; intros Hnil;
    try (exfalso; exact (Hcmd _ Hnil)).
  rewrite filter_app, length_app. cbn. lia.
Qed.

(** X15.  [buyQuotaForBucket] keeps no record of past purchases: when two
    invocations in a row both return nil ([toCmdErr] assumed to return a
    non-nil error), two submissions were made, one by each. *)
Theorem buyQuota_twice_submits_twice ctx w :
  (forall e, toCmdErr e <> None) ->
  fst (twice buyQuotaForBucket ctx w) = (None, None) ->
  length (filter is_submission (calls (snd (twice buyQuotaForBucket ctx w))))
    = S (S (length (filter is_submission (calls w)))).
Proof.
  intros Hcmd. unfold twice, bind, ret.
  pose proof (buyQuotaForBucket_nil_counts ctx w Hcmd) as Hfirst.
  destruct (buyQuotaForBucket ctx w) as [first w1].
  pose proof (buyQuotaForBucket_nil_counts ctx w1 Hcmd) as Hsecond.
  destruct (buyQuotaForBucket ctx w1) as [second w2].
  cbn [fst snd] in *. intros Hboth. injection Hboth as -> ->.
  rewrite (Hsecond eq_refl), (Hfirst eq_refl). reflexivity.
Qed.

End Behaviour.


(** ** The further behaviour on the stub environment *)

Lemma buyQuota_error_sends_nothing_witness :
  filter is_submission
    (calls (snd (buyQuotaForBucket (env := Stub.externals (inl Stub.missing))
                   (Stub.ctx "b1" 1000000 "") (Stub.world0 _)))) = [] /\
  stdout (snd (buyQuotaForBucket (env := Stub.externals (inl Stub.missing))
                 (Stub.ctx "b1" 1000000 "") (Stub.world0 _))) = [].
Proof.
  apply (buyQuota_error_sends_nothing (env := Stub.externals (inl Stub.missing))
           (Stub.ctx "b1" 1000000 "") (Stub.world0 _)).
  cbn. discriminate.
Defined.

Lemma buyQuota_nil_means_attempted_witness :
  exists bucketName line,
    Stub.resolve (Stub.ctx "b1" 5 "") = inl bucketName /\
    5%N <> 0%N /\
    calls (snd (buyQuotaForBucket (env := Stub.externals (inl Stub.rejecting))
                  (Stub.ctx "b1" 5 "") (Stub.world0 _)))
      = [] ++ [CallHeadBucket bucketName; CallBuyQuotaForBucket bucketName 5 blockOption] /\
    stdout (snd (buyQuotaForBucket (env := Stub.externals (inl Stub.rejecting))
                   (Stub.ctx "b1" 5 "") (Stub.world0 _))) = [] ++ [line] /\
    ((exists err, line = Sprintln ["buy quota error:"%string; Error err]) \/
     (exists txnHash,
        line = ("buy quota for bucket: " ++ bucketName ++ " successfully, txn hash: "
                  ++ txnHash ++ nl)%string)).
Proof.
  apply (buyQuota_nil_means_attempted (env := Stub.externals (inl Stub.rejecting))
           (Stub.ctx "b1" 5 "") (Stub.world0 _)).
  - intros e; discriminate.
  - reflexivity.
Defined.

Lemma getQuotaPrice_prints_both_prices_witness :
  getQuotaPrice (env := Stub.externals (inl Stub.accepting))
      (Stub.ctx "b1" 0 "0x70") (Stub.world0 _)
    = (None,
       @mkWorld (Stub.externals (inl Stub.accepting)) 0%nat [CallGetStoragePrice "0x70"]
         [("get bucket read quota price: 0.001  wei/byte" ++ nl)%string;
          ("get bucket storage price: 0.002  wei/byte" ++ nl)%string]).
Proof.
  apply (getQuotaPrice_prints_both_prices (env := Stub.externals (inl Stub.accepting))
           (Stub.ctx "b1" 0 "0x70") (Stub.world0 _) Stub.accepting Stub.prices 0%nat
           "0.001"%string "0.002"%string);
    [reflexivity | cbn; discriminate | reflexivity | reflexivity | reflexivity].
Defined.

Lemma getQuotaPrice_nil_means_prices_printed_witness :
  exists quotaPrice storagePrice,
    stdout (snd (getQuotaPrice (env := Stub.externals (inl Stub.accepting))
                   (Stub.ctx "b1" 0 "0x70") (Stub.world0 _)))
      = [Sprintln ["get bucket read quota price:"%string; quotaPrice; " wei/byte"%string];
         Sprintln ["get bucket storage price:"%string; storagePrice; " wei/byte"%string]].
Proof.
  destruct (getQuotaPrice_nil_means_prices_printed (env := Stub.externals (inl Stub.accepting))
              (Stub.ctx "b1" 0 "0x70") (Stub.world0 _))
    as [client [price [remote1 [quotaPrice [storagePrice [_ [_ [_ [_ [_ Hout]]]]]]]]]].
  - intros e; discriminate.
  - reflexivity.
  - exists quotaPrice, storagePrice. exact Hout.
Defined.

Lemma getQuotaPrice_error_prints_no_price_witness :
  stdout (snd (getQuotaPrice (env := Stub.externals (inl Stub.badStorePrice))
                 (Stub.ctx "b1" 0 "0x70") (Stub.world0 _))) = [] \/
  exists err label,
    fst (getQuotaPrice (env := Stub.externals (inl Stub.badStorePrice))
           (Stub.ctx "b1" 0 "0x70") (Stub.world0 _)) = Some err /\
    (label = "get quota price error:"%string \/ label = "get storage price error:"%string) /\
    stdout (snd (getQuotaPrice (env := Stub.externals (inl Stub.badStorePrice))
                   (Stub.ctx "b1" 0 "0x70") (Stub.world0 _)))
      = [] ++ [Sprintln [label; Error err]].
Proof.
  apply (getQuotaPrice_error_prints_no_price (env := Stub.externals (inl Stub.badStorePrice))
           (Stub.ctx "b1" 0 "0x70") (Stub.world0 _)).
  cbn. discriminate.
Defined.

Lemma getQuotaPrice_query_failure_witness :
  getQuotaPrice (env := Stub.externals (inl Stub.rejecting))
      (Stub.ctx "b1" 0 "0x70") (Stub.world0 _)
    = (Some (errors_New "unknown storage provider"),
       @mkWorld (Stub.externals (inl Stub.rejecting)) 0%nat [CallGetStoragePrice "0x70"] []).
Proof.
  apply (getQuotaPrice_query_failure (env := Stub.externals (inl Stub.rejecting))
           (Stub.ctx "b1" 0 "0x70") (Stub.world0 _) Stub.rejecting
           (errors_New "unknown storage provider") 0%nat);
    [reflexivity | cbn; discriminate | reflexivity].
Defined.

Lemma getQuotaInfo_output_matches_status_witness :
  fst (getQuotaInfo (env := Stub.externals (inl Stub.accepting))
         (Stub.ctx "b1" 0 "") (Stub.world0 _)) = None /\
  stdout (snd (getQuotaInfo (env := Stub.externals (inl Stub.accepting))
                 (Stub.ctx "b1" 0 "") (Stub.world0 _))) = [quotaReport Stub.ledger].
Proof.
  destruct (getQuotaInfo_output_matches_status (env := Stub.externals (inl Stub.accepting))
              (Stub.ctx "b1" 0 "") (Stub.world0 _)) as [[Hnil _] | [Herr _]].
  - intros e; discriminate.
  - split; [exact Hnil | reflexivity].
  - exfalso. apply Herr. reflexivity.
Defined.

Lemma action_reads_declared_flags_witness :
  buyQuotaForBucket (env := Stub.externals (inl Stub.accepting))
      (Probe.ctx 5 0 "0x70" "") (Stub.world0 _)
    = buyQuotaForBucket (env := Stub.externals (inl Stub.accepting))
        (Probe.ctx 5 7 "" "verbose") (Stub.world0 _).
Proof.
  apply (action_reads_declared_flags (env := Stub.externals (inl Stub.accepting))
           cmdBuyQuota (Probe.ctx 5 0 "0x70" "") (Probe.ctx 5 7 "" "verbose") (Stub.world0 _)).
  - right; left; reflexivity.
  - reflexivity.
  - reflexivity.
  - constructor; [reflexivity | constructor].
Defined.

Lemma buyQuota_twice_submits_twice_witness :
  length (filter is_submission
            (calls (snd (twice (env := Stub.externals (inl Stub.accepting)) buyQuotaForBucket
                           (Stub.ctx "b1" 1000000 "") (Stub.world0 _))))) = 2%nat.
Proof.
  apply (buyQuota_twice_submits_twice (env := Stub.externals (inl Stub.accepting))
           (Stub.ctx "b1" 1000000 "") (Stub.world0 _)).
  - intros e; discriminate.
  - reflexivity.
Defined.

Lemma setup_failure_stops_before_any_call_witness :
  buyQuotaForBucket (env := Stub.externals Probe.noClient) Probe.noLocator (Stub.world0 _)
    = (Some (errors_New "the args number should be one"), Stub.world0 _) /\
  getQuotaPrice (env := Stub.externals Probe.noClient) Probe.noLocator (Stub.world0 _)
    = (Some (errors_New "failed to create client"), Stub.world0 _) /\
  getQuotaInfo (env := Stub.externals Probe.noClient) (Stub.ctx "b1" 0 "") (Stub.world0 _)
    = (Some (errors_New "failed to create client"), Stub.world0 _).
Proof.
  destruct (setup_failure_stops_before_any_call (env := Stub.externals Probe.noClient)
              Probe.noLocator (Stub.world0 _)) as [Hlocator Hclient].
  destruct (setup_failure_stops_before_any_call (env := Stub.externals Probe.noClient)
              (Stub.ctx "b1" 0 "") (Stub.world0 _)) as [_ Hclient'].
  split; [exact (proj1 (Hlocator _ eq_refl))|].
  split; [exact (proj1 (Hclient _ eq_refl))|].
  exact (proj2 (proj2 (Hclient' _ eq_refl) "b1"%string eq_refl)).
Defined.
